(** * Acontext core: task data access, task SOP agent and sandbox runtime registry

  A shallow embedding of
    - [acontext_core/service/data/task.py]   (module [TaskData]),
    - [acontext_core/llm/agent/task_sop.py]  (module [TaskSOP]),
    - [acontext_core/telemetry/log.py]       (module [Log]),
    - the sandbox runtime registry and lifecycle service that
      [acontext_core/infra/sandbox/__init__.py] and
      [acontext_core/infra/sandbox/runtime/__init__.py] re-export
      (module [Sandbox]),
  followed by the properties stated about them. *)

From Stdlib Require Import ZArith NArith List String Ascii Lia Sorted Permutation Bool.
From stdpp Require Import base option list sorting strings gmap.

Set Warnings "-register-all".

(* ===================================================================== *)
(** ** Shared schema: UUIDs, JSON payloads, [Result], the [Task] row      *)
(* ===================================================================== *)

Module Schema.

(** [schema.utils.asUUID] is [uuid.UUID]; a UUID is its 128-bit integer. *)
Abbreviation asUUID := N (only parsing).

Definition hex_digit (d : N) : ascii :=
  match d with
  | 0 => "0" | 1 => "1" | 2 => "2" | 3 => "3" | 4 => "4" | 5 => "5"
  | 6 => "6" | 7 => "7" | 8 => "8" | 9 => "9" | 10 => "a" | 11 => "b"
  | 12 => "c" | 13 => "d" | 14 => "e" | _ => "f"
  end%N%char.

(** ['%0<width>x' % n]: [width] hexadecimal digits, most significant first. *)
Fixpoint hex_fixed (width : nat) (n : N) : string :=
  match width with
  | O => EmptyString
  | S w => String (hex_digit (N.land (N.shiftr n (4 * N.of_nat w)) 15))
                  (hex_fixed w n)
  end.

(** [str(uuid)], which is what the f-string [f"{task_id}"] renders:
    the 32 hex digits grouped 8-4-4-4-12. *)
Definition uuid_str (u : asUUID) : string :=
  let hex := hex_fixed 32 u in
  substring 0 8 hex +:+ "-" +:+ substring 8 4 hex +:+ "-" +:+
  substring 12 4 hex +:+ "-" +:+ substring 16 4 hex +:+ "-" +:+
  substring 20 12 hex.

(** JSON values, the content of the [task_data] column. *)
Inductive json : Type :=
| JNull
| JBool (b : bool)
| JInt (z : Z)
| JStr (s : string)
| JList (items : list json)
| JDict (fields : list (string * json)).

(** A Python [dict] with string keys, in insertion order. *)
Abbreviation dict := (list (string * json)) (only parsing).

(** [schema.result.Result]: built by [Result.resolve(data)] or
    [Result.reject(errmsg)], read back with [unpack()]. *)
Inductive Result (A : Type) : Type :=
| resolve (data : A)
| reject (errmsg : string).
Arguments resolve {A} data.
Arguments reject {A} errmsg.

Record Error := { errmsg : string }.

(** [data, error = result.unpack()] *)
Definition unpack {A} (r : Result A) : option A * option Error :=
  match r with
  | resolve d => (Some d, None)
  | reject m => (None, Some {| errmsg := m |})
  end.

(** [sub in s] on Python strings. *)
Definition str_in (sub s : string) : Prop :=
  exists before after, s = before +:+ sub +:+ after.

(** [schema.orm.Task]: the columns the data-access functions touch. *)
Record Task := {
  id : asUUID;
  session_id : asUUID;
  task_order : Z;
  task_data : dict;
  task_status : string
}.

(** Python truthiness of an optional [str] argument ([if status:]):
    [None] and the empty string are falsy. *)
Definition truthy (s : option string) : bool :=
  match s with
  | None => false
  | Some EmptyString => false
  | Some (String _ _) => true
  end.

End Schema.

(* ===================================================================== *)
(** ** [service/data/task.py]                                             *)
(* ===================================================================== *)

Module TaskData.
Import Schema.

(** The part of the database that an [AsyncSession] shows to these
    functions: the rows of the tasks table in insertion order, and the
    generator of primary keys for new rows. *)
Record AsyncSession := {
  tasks : list Task;
  uuid_seq : N
}.

Definition set_tasks (s : AsyncSession) (rows : list Task) : AsyncSession :=
  {| tasks := rows; uuid_seq := uuid_seq s |}.

(** Coroutines over a session, as a state monad. *)
Definition DB (A : Type) : Type := AsyncSession -> A * AsyncSession.

Definition ret {A} (a : A) : DB A := fun s => (a, s).

Definition bind {A B} (m : DB A) (k : A -> DB B) : DB B :=
  fun s => let (a, s') := m s in k a s'.

Notation "'let*' x ':=' m 'in' k" :=
  (bind m (fun x => k))
  (at level 10, x name, m at level 100, k at level 200, only parsing).

(** *** Queries *)

(** A [select(Task)] statement: its accumulated [WHERE] condition and
    whether [ORDER BY task_order ASC] was requested. *)
Record Select := {
  whereclause : Task -> bool;
  order_by_task_order : bool
}.

Definition select_Task : Select :=
  {| whereclause := fun _ => true; order_by_task_order := false |}.

Definition where_ (cond : Task -> bool) (q : Select) : Select :=
  {| whereclause := fun t => whereclause q t && cond t;
     order_by_task_order := order_by_task_order q |}.

Definition order_by_task_order_asc (q : Select) : Select :=
  {| whereclause := whereclause q; order_by_task_order := true |}.

(** An ORM object: the identity of the row it is attached to (its
    position in the table) together with its attribute values. *)
Definition TaskObj : Type := nat * Task.

Fixpoint enumerate_from (i : nat) (rows : list Task) : list TaskObj :=
  match rows with
  | [] => []
  | t :: rows' => (i, t) :: enumerate_from (S i) rows'
  end.

(** [ORDER BY task_order ASC] as a stable insertion sort: rows with
    equal keys stay in table order. *)
Fixpoint insert_asc (o : TaskObj) (l : list TaskObj) : list TaskObj :=
  match l with
  | [] => [o]
  | h :: l' =>
      if (task_order (snd o) <=? task_order (snd h))%Z
      then o :: h :: l'
      else h :: insert_asc o l'
  end.

Fixpoint sort_asc (l : list TaskObj) : list TaskObj :=
  match l with
  | [] => []
  | o :: l' => insert_asc o (sort_asc l')
  end.

(** [await db_session.execute(query)] followed by [.scalars()]. *)
Definition execute (q : Select) : DB (list TaskObj) :=
  fun s =>
    let hits := List.filter (fun o => whereclause q (snd o))
                            (enumerate_from 0 (tasks s)) in
    (if order_by_task_order q then sort_asc hits else hits, s).

(** [.first()] *)
Definition first (objs : list TaskObj) : option TaskObj := head objs.

(** [list(... .all())]: the attribute values of the returned objects. *)
Definition all (objs : list TaskObj) : list Task := map snd objs.

(** Attribute assignment on an attached object: the object and the row
    it aliases both change. *)
Definition setattr (task : TaskObj) (f : Task -> Task) : DB TaskObj :=
  fun s =>
    let t' := f (snd task) in
    ((fst task, t'), set_tasks s (<[fst task := t']> (tasks s))).

Definition with_task_status (v : string) (t : Task) : Task :=
  {| id := id t; session_id := session_id t; task_order := task_order t;
     task_data := task_data t; task_status := v |}.

Definition with_task_order (v : Z) (t : Task) : Task :=
  {| id := id t; session_id := session_id t; task_order := v;
     task_data := task_data t; task_status := task_status t |}.

Definition with_task_data (v : dict) (t : Task) : Task :=
  {| id := id t; session_id := session_id t; task_order := task_order t;
     task_data := v; task_status := task_status t |}.

(** The SQL condition [Task.task_status == status]. *)
Definition task_status_eq (t : Task) (status : option string) : bool :=
  match status with
  | Some v => String.eqb (task_status t) v
  | None => false
  end.

(** *** The four data-access functions *)

Definition fetch_current_tasks (session_id' : asUUID) (status : option string)
  : DB (Result (list Task)) :=
  let query :=
    order_by_task_order_asc
      (where_ (fun t => (session_id t =? session_id')%N) select_Task) in
  let query :=
    if truthy status
    then where_ (fun t => task_status_eq t status) query
    else query in
  let* result := execute query in
  let tasks := all result in
  ret (resolve tasks).

Definition update_task (task_id : asUUID) (status : option string)
    (order : option Z) (data : option dict) : DB (Result Task) :=
  let query := where_ (fun t => (id t =? task_id)%N) select_Task in
  let* result := execute query in
  match first result with
  | None => ret (reject ("Task " +:+ uuid_str task_id +:+ " not found"))
  | Some task =>
      let* task :=
        match status with
        | Some v => setattr task (with_task_status v)
        | None => ret task
        end in
      let* task :=
        match order with
        | Some v => setattr task (with_task_order v)
        | None => ret task
        end in
      let* task :=
        match data with
        | Some v => setattr task (with_task_data v)
        | None => ret task
        end in
      ret (resolve (snd task))
  end.

(** [db_session.add(task); await db_session.flush()]: the row is
    appended and receives its primary key. *)
Definition add_and_flush (session_id' : asUUID) (order : Z) (data : dict)
    (status : string) : DB Task :=
  fun s =>
    let task := {| id := uuid_seq s; session_id := session_id';
                   task_order := order; task_data := data;
                   task_status := status |} in
    (task, {| tasks := tasks s ++ [task]; uuid_seq := N.succ (uuid_seq s) |}).

Definition insert_task (session_id' : asUUID) (order : Z) (data : dict)
    (status : string) : DB (Result asUUID) :=
  let* task := add_and_flush session_id' order data status in
  ret (resolve (id task)).

(** The default of the [status] parameter of [insert_task]. *)
Definition default_status : string := "pending".

(** [delete(Task).where(Task.id == task_id)] *)
Definition execute_delete (cond : Task -> bool) : DB unit :=
  fun s => (tt, set_tasks s (List.filter (fun t => negb (cond t)) (tasks s))).

Definition delete_task (task_id : asUUID) : DB (Result unit) :=
  let* _ := execute_delete (fun t => (id t =? task_id)%N) in
  ret (resolve tt).

(** *** Notions used to state the properties, and sample sessions *)

(** The ordering that [ORDER BY task_order ASC] promises. *)
Definition order_le (a b : Task) : Prop := (task_order a <= task_order b)%Z.

Definition obj_le (a b : TaskObj) : Prop := order_le (snd a) (snd b).

(** What [fetch_current_tasks] selects, before ordering. *)
Definition selected (session_id' : asUUID) (status : option string) (t : Task) : bool :=
  (session_id t =? session_id')%N &&
  (if truthy status then task_status_eq t status else true).

(** The listing the specification describes: the selected rows in the
    order of their creation, which is the order of the table since
    [insert_task] appends. *)
Definition listing_by_creation_time (session_id' : asUUID)
    (status : option string) (s : AsyncSession) : list Task :=
  List.filter (selected session_id' status) (tasks s).

(** The row produced by a call of [update_task]: each column takes the
    argument when one is given and keeps its value otherwise. *)
Definition updated (status : option string) (order : option Z)
    (data : option dict) (t : Task) : Task :=
  {| id := id t;
     session_id := session_id t;
     task_order := default (task_order t) order;
     task_data := default (task_data t) data;
     task_status := default (task_status t) status |}.

(** A task with an empty payload. *)
Definition row (i sid : asUUID) (o : Z) (st : string) : Task :=
  {| id := i; session_id := sid; task_order := o; task_data := [];
     task_status := st |}.

(** A session with three tasks, whose orders are not those of creation. *)
Definition three_rows : AsyncSession :=
  {| tasks := [row 1 7 3 "pending"; row 2 7 1 "running"; row 3 7 2 "pending"];
     uuid_seq := 4 |}.

(** The session of [test_task_ordering_after_updates]: three tasks
    inserted with orders 3, 1, 2 into an empty table. *)
Definition empty_session : AsyncSession := {| tasks := []; uuid_seq := 1 |}.

Definition inserted_3_1_2 : AsyncSession :=
  snd (insert_task 7 2 [] default_status
    (snd (insert_task 7 1 [] default_status
      (snd (insert_task 7 3 [] default_status empty_session))))).

End TaskData.

(* ===================================================================== *)
(** ** [llm/agent/task_sop.py]                                            *)
(* ===================================================================== *)

Module TaskSOP.
Import Schema.

Section Agent.
(** [schema.session.task.TaskSchema] is declared outside these sources. *)
Context {TaskSchema : Type}.
(** Whatever a coroutine of the service can read or change (database,
    logging context, LLM provider). *)
Context {World : Type}.

(** The default of the [max_iterations] parameter. *)
Definition default_max_iterations : Z := 3.

(** The body is [pass]: the coroutine returns [None] (here [tt]) and
    touches nothing.  The [track_process] decorator that wraps it comes
    from [util.generate_ids], outside these sources; this is the
    function as written under the decorator. *)
Definition sop_agent_curd (project_id space_id : asUUID)
    (planning_task current_task : TaskSchema) (max_iterations : Z)
  : World -> unit * World :=
  fun w => (tt, w).
End Agent.

End TaskSOP.

(* ===================================================================== *)
(** ** [infra/sandbox]: runtime registry and lifecycle service            *)
(* ===================================================================== *)

(** [infra/sandbox/__init__.py] and [infra/sandbox/runtime/__init__.py]
  only re-export names; the modules that define them ([lifecycle],
  [runtime.base], [runtime.registry]) are not part of these sources, so
  every definition of this module is written from the specification. *)
Module Sandbox.

(** Modelled from the spec: the [SandboxBackend] enum of the absent
    [lifecycle] module.  "Backend (enum): identifies which runtime
    implementation manages a resource (e.g., containerized,
    process-isolated, remote).  Closed set." *)
Inductive SandboxBackend : Type := DOCKER | PROCESS | REMOTE.

#[global] Instance SandboxBackend_eq_dec : EqDecision SandboxBackend.
Proof. solve_decision. Defined.

#[global] Instance SandboxBackend_countable : Countable SandboxBackend.
Proof.
  refine (inj_countable'
            (fun b => match b with DOCKER => 0 | PROCESS => 1 | REMOTE => 2 end)
            (fun n => match n with 0 => DOCKER | 1 => PROCESS | _ => REMOTE end)
            _).
  intros []; reflexivity.
Defined.

(** Modelled from the spec: the [SandboxStatus] enum of the absent
    [lifecycle] module.  "Status (enum): lifecycle state of a managed
    resource - Pending, Starting, Running, Stopping, Stopped, with a
    terminal Failed state reachable from any non-terminal state";
    sections 5 and 7 add the mark of a record whose backend call timed
    out: "resource left in Unknown pending reconciliation". *)
Inductive SandboxStatus : Type :=
  Pending | Starting | Running | Stopping | Stopped | Failed | Unknown.

#[global] Instance SandboxStatus_eq_dec : EqDecision SandboxStatus.
Proof. solve_decision. Defined.

(** Modelled from the spec: "Stopped and Failed are terminal." *)
Definition is_terminal (st : SandboxStatus) : bool :=
  match st with
  | Stopped | Failed => true
  | _ => false
  end.

Definition status_rank (st : SandboxStatus) : nat :=
  match st with
  | Pending => 0 | Starting => 1 | Running => 2
  | Stopping => 3 | Stopped => 4 | Failed => 5
  | Unknown => 0
  end.

(** Modelled from the spec: "Status transitions are monotonic per
    resource: no backward transition"; nothing follows a terminal state.
    A record marked Unknown takes whatever status the reconciliation
    finds, and any record that is not terminal can be marked Unknown. *)
Definition may_follow (old new : SandboxStatus) : bool :=
  negb (is_terminal old) &&
  match old, new with
  | Unknown, _ | _, Unknown => true
  | _, _ => status_rank old <=? status_rank new
  end.

(** Modelled from the spec: the [SandboxInfo] record of the absent
    [lifecycle] module.  "ResourceInfo: identity (opaque id), declared
    Backend, current Status, a mapping of exposed-endpoint descriptors
    (each: internal port/path to externally reachable URL), and
    backend-specific opaque metadata." *)
Record SandboxInfo := {
  sandbox_id : N;
  backend : SandboxBackend;
  status : SandboxStatus;
  exposed_urls : gmap N string;
  metadata : string
}.

(** Modelled from the spec: section 3, "Exposed-endpoint entries exist
    only while Status == Running", with section 4.3, the service "is
    responsible for keeping the persisted ResourceInfo consistent".  The
    service writes a status together with the endpoints that go with it,
    and writes endpoints only under the status Running. *)
Definition with_status (st : SandboxStatus) (urls : gmap N string)
    (r : SandboxInfo) : SandboxInfo :=
  {| sandbox_id := sandbox_id r; backend := backend r; status := st;
     exposed_urls := match st with Running => urls | _ => ∅ end;
     metadata := metadata r |}.

(** Modelled from the spec: the error taxonomy of section 7. *)
Inductive SandboxError : Type :=
| ProvisionError
| NotFoundError
| UnregisteredBackendError
| TimeoutError
| TransientInfraError.

(** A call either returns or raises one of the errors above. *)
Inductive outcome (A : Type) : Type :=
| Ok (a : A)
| Raise (e : SandboxError).
Arguments Ok {A} a.
Arguments Raise {A} e.

Record SandboxSpec := {
  spec_backend : SandboxBackend;
  spec_metadata : string
}.

(** Modelled from the spec: the [SandboxRuntime] interface of the absent
    [runtime.base] module, section 4.1: create, status, terminate and
    exposedUrls.  A handle carries what its backend answers at the time
    of the call. *)
Record SandboxRuntime := {
  rt_create : SandboxSpec -> outcome SandboxInfo;
  rt_status : N -> outcome SandboxStatus;
  rt_terminate : N -> outcome unit;
  rt_exposedUrls : N -> gmap N string
}.

(** *** Registry (section 4.2) *)

Inductive LogRecord : Type :=
| OverwriteWarning (b : SandboxBackend).

(** Modelled from the spec: the process-wide registry of the absent
    [runtime.registry] module, "mapping from backend discriminator to
    factory", together with the log it writes to. *)
Record Registry := {
  factories : gmap SandboxBackend (unit -> SandboxRuntime);
  registry_log : list LogRecord
}.

Definition empty_registry : Registry :=
  {| factories := ∅; registry_log := [] |}.

(** Modelled from the spec: [register_runtime_backend] of the absent
    [runtime.registry] module.  "Registering the same discriminator twice
    overwrites the prior factory (last-registration-wins) - this must be
    explicit and logged"; design notes: "a guarded insert that logs a
    warning on overwrite". *)
Definition register_runtime_backend (b : SandboxBackend)
    (factory : unit -> SandboxRuntime) (reg : Registry) : Registry :=
  match factories reg !! b with
  | Some _ =>
      {| factories := <[b := factory]> (factories reg);
         registry_log := registry_log reg ++ [OverwriteWarning b] |}
  | None =>
      {| factories := <[b := factory]> (factories reg);
         registry_log := registry_log reg |}
  end.

Definition resolve_backend (reg : Registry) (b : SandboxBackend)
  : outcome SandboxRuntime :=
  match factories reg !! b with
  | Some factory => Ok (factory tt)
  | None => Raise UnregisteredBackendError
  end.

(** Modelled from the spec: [get_runtime_for_sandbox] of the absent
    [runtime.registry] module.  "resolve(resourceInfo): looks up the
    factory for resourceInfo.Backend and constructs a handle.  Fails
    with UnregisteredBackendError if no factory is registered." *)
Definition get_runtime_for_sandbox (reg : Registry) (sandbox : SandboxInfo)
  : outcome SandboxRuntime :=
  resolve_backend reg (backend sandbox).

(** *** Lifecycle service (section 4.3) *)

(** The persisted records, in creation order. *)
Abbreviation Store := (list SandboxInfo) (only parsing).

Definition find_sandbox (sid : N) (store : Store) : option SandboxInfo :=
  List.find (fun r => (sandbox_id r =? sid)%N) store.

Definition persist (sid : N) (f : SandboxInfo -> SandboxInfo) (store : Store)
  : Store :=
  map (fun r => if (sandbox_id r =? sid)%N then f r else r) store.

Definition sandbox_status (store : Store) (sid : N) : option SandboxStatus :=
  status <$> find_sandbox sid store.

(** Modelled from the spec: the endpoints the service reports for a
    resource are those of its persisted record. *)
Definition exposedUrls (store : Store) (sid : N) : gmap N string :=
  match find_sandbox sid store with
  | Some r => exposed_urls r
  | None => ∅
  end.

(** Modelled from the spec: what a failed backend call leaves on the
    record.  Section 7: "TimeoutError (backend call exceeded caller
    deadline - surfaced; resource left in Unknown pending
    reconciliation)";  section 4.3: "any state may transition to Failed on
    unrecoverable backend error", which of the taxonomy is ProvisionError,
    "infrastructure rejected [...] not retried automatically".  The other
    kinds are surfaced and nothing has happened to the resource:
    NotFoundError, UnregisteredBackendError (no backend was called) and
    TransientInfraError (retryable). *)
Definition status_after_error (e : SandboxError) : option SandboxStatus :=
  match e with
  | TimeoutError => Some Unknown
  | ProvisionError => Some Failed
  | NotFoundError | UnregisteredBackendError | TransientInfraError => None
  end.

(** The store after a lifecycle call on record [r] of id [sid] failed
    with [e]; a terminal record stays as it is. *)
Definition record_failure (e : SandboxError) (sid : N) (r : SandboxInfo)
    (store : Store) : Store :=
  match status_after_error e with
  | Some st =>
      if is_terminal (status r) then store
      else persist sid (with_status st ∅) store
  | None => store
  end.

(** Modelled from the spec: "createResource(spec): resolves backend from
    spec.Backend, invokes create, persists the returned ResourceInfo with
    initial Status = Pending or whatever the backend reports, returns it.
    On backend failure, the resource record is [...] not created". *)
Definition createResource (reg : Registry) (spec : SandboxSpec) (store : Store)
  : outcome SandboxInfo * Store :=
  match resolve_backend reg (spec_backend spec) with
  | Raise e => (Raise e, store)
  | Ok h =>
      match rt_create h spec with
      | Raise e => (Raise e, store)
      | Ok info =>
          let record := with_status (status info) (exposed_urls info) info in
          (Ok record, store ++ [record])
      end
  end.

(** Modelled from the spec: the get-status call of section 6, run as
    "(resolve backend), (invoke capability), (persist resulting status)";
    this is where "backend confirms" moves a record along the state
    machine, and a backward report is not persisted.  A failed backend
    call is surfaced and leaves the mark of [status_after_error]. *)
Definition getStatus (reg : Registry) (sid : N) (store : Store)
  : outcome SandboxStatus * Store :=
  match find_sandbox sid store with
  | None => (Raise NotFoundError, store)
  | Some r =>
      match get_runtime_for_sandbox reg r with
      | Raise e => (Raise e, store)
      | Ok h =>
          match rt_status h sid with
          | Raise e => (Raise e, record_failure e sid r store)
          | Ok st =>
              if may_follow (status r) st
              then (Ok st, persist sid (with_status st (rt_exposedUrls h sid)) store)
              else (Ok (status r), store)
          end
      end
  end.

(** Modelled from the spec: "terminateResource(id): resolves backend from
    the stored record, invokes terminate, updates stored Status.  Must
    tolerate the backend reporting already gone as success";  an unknown
    or already terminal resource is a successful no-op.  Any other failed
    backend call is surfaced and leaves the mark of [status_after_error]. *)
Definition terminateResource (reg : Registry) (sid : N) (store : Store)
  : outcome unit * Store :=
  match find_sandbox sid store with
  | None => (Ok tt, store)
  | Some r =>
      if is_terminal (status r) then (Ok tt, store)
      else
        match get_runtime_for_sandbox reg r with
        | Raise e => (Raise e, store)
        | Ok h =>
            match rt_terminate h sid with
            | Ok _ => (Ok tt, persist sid (with_status Stopping ∅) store)
            | Raise NotFoundError =>
                (Ok tt, persist sid (with_status Stopped ∅) store)
            | Raise e => (Raise e, record_failure e sid r store)
            end
        end
  end.

(** *** Listing and pagination *)

Record ListFilter := {
  by_backend : option SandboxBackend;
  by_status : option SandboxStatus
}.

Definition matches (flt : ListFilter) (r : SandboxInfo) : bool :=
  match by_backend flt with
  | Some b => bool_decide (backend r = b)
  | None => true
  end &&
  match by_status flt with
  | Some st => bool_decide (status r = st)
  | None => true
  end.

(** The unpaginated listing: the matching records in creation order. *)
Definition list_all (flt : ListFilter) (store : Store) : list SandboxInfo :=
  List.filter (matches flt) store.

Record PageRequest := {
  page_token : option nat;
  page_size : nat
}.

(** Modelled from the spec: the [SandboxPage] record of the absent
    [lifecycle] module.  "Page: an ordered, size-bounded slice of
    ResourceInfo plus a continuation token." *)
Record SandboxPage := {
  items : list SandboxInfo;
  next_page_token : option nat
}.

(** Modelled from the spec: "listResources(filter, page): pure read,
    paginated, ordered by creation time ascending".  The continuation
    token is the position at which the next page starts. *)
Definition listResources (flt : ListFilter) (page : PageRequest) (store : Store)
  : SandboxPage :=
  let listing := list_all flt store in
  let start := match page_token page with Some t => t | None => 0 end in
  {| items := take (page_size page) (drop start listing);
     next_page_token :=
       if decide (start + page_size page < length listing)
       then Some (start + page_size page)
       else None |}.

(** A client that follows the continuation tokens from [token] on, for
    at most [fuel] requests. *)
Fixpoint follow_pages (fuel : nat) (flt : ListFilter) (size : nat)
    (store : Store) (token : option nat) : option (list SandboxPage) :=
  match fuel with
  | O => None
  | S fuel' =>
      let page := listResources flt {| page_token := token; page_size := size |} store in
      match next_page_token page with
      | None => Some [page]
      | Some next =>
          cons page <$> follow_pages fuel' flt size store (Some next)
      end
  end.

(** *** Histories of lifecycle calls *)

Inductive LifecycleCall : Type :=
| CreateResource (reg : Registry) (spec : SandboxSpec)
| GetStatus (reg : Registry) (sid : N)
| ListResources (flt : ListFilter) (page : PageRequest)
| TerminateResource (reg : Registry) (sid : N).

Definition run_call (c : LifecycleCall) (store : Store) : Store :=
  match c with
  | CreateResource reg spec => snd (createResource reg spec store)
  | GetStatus reg sid => snd (getStatus reg sid store)
  | ListResources _ _ => store
  | TerminateResource reg sid => snd (terminateResource reg sid store)
  end.

(** The store reached from the empty one by a history of calls. *)
Definition run_calls (calls : list LifecycleCall) : Store :=
  fold_left (fun store c => run_call c store) calls [].


(** *** Sample registries, stores and histories *)

Definition remote_sandbox : SandboxInfo :=
  {| sandbox_id := 1; backend := REMOTE; status := Pending;
     exposed_urls := ∅; metadata := "" |}.

Definition sandbox (sid : N) (b : SandboxBackend) (st : SandboxStatus) : SandboxInfo :=
  {| sandbox_id := sid; backend := b; status := st;
     exposed_urls := ∅; metadata := "" |}.

Definition three_sandboxes : list SandboxInfo :=
  [sandbox 1 DOCKER Pending; sandbox 2 REMOTE Stopped; sandbox 3 DOCKER Pending].

Definition no_filter : ListFilter :=
  {| by_backend := None; by_status := None |}.

(** The scenario of the specification: a stub backend whose sandboxes
    run at once behind one fixed URL. *)
Definition stub_urls : gmap N string := {[ 8080%N := "http://localhost:8080" ]}.

Definition stub_runtime : SandboxRuntime :=
  {| rt_create := fun spec =>
       Ok {| sandbox_id := 1; backend := spec_backend spec; status := Running;
             exposed_urls := stub_urls; metadata := spec_metadata spec |};
     rt_status := fun _ => Ok Running;
     rt_terminate := fun _ => Ok tt;
     rt_exposedUrls := fun _ => stub_urls |}.

Definition stub_registry : Registry :=
  register_runtime_backend DOCKER (fun _ => stub_runtime) empty_registry.

Definition docker_spec : SandboxSpec :=
  {| spec_backend := DOCKER; spec_metadata := "" |}.

Definition create_then_terminate : list LifecycleCall :=
  [CreateResource stub_registry docker_spec; TerminateResource stub_registry 1].

(** A backend that does not keep to section 4.1: it reports endpoints
    for a sandbox that is still Pending, and its status and terminate
    calls time out. *)
Definition careless_runtime : SandboxRuntime :=
  {| rt_create := fun spec =>
       Ok {| sandbox_id := 2; backend := spec_backend spec; status := Pending;
             exposed_urls := stub_urls; metadata := spec_metadata spec |};
     rt_status := fun _ => Raise TimeoutError;
     rt_terminate := fun _ => Raise TimeoutError;
     rt_exposedUrls := fun _ => stub_urls |}.

Definition careless_registry : Registry :=
  register_runtime_backend REMOTE (fun _ => careless_runtime) stub_registry.

Definition remote_spec : SandboxSpec :=
  {| spec_backend := REMOTE; spec_metadata := "" |}.

(** A history over both backends: the stub sandbox is created and its
    status read; the careless one is created and its status times out. *)
Definition mixed_history : list LifecycleCall :=
  [ CreateResource careless_registry docker_spec;
    GetStatus careless_registry 1;
    CreateResource careless_registry remote_spec;
    GetStatus careless_registry 2 ].

End Sandbox.

(* ===================================================================== *)
(** ** Sessions of the task table: keys, histories of calls               *)
(* ===================================================================== *)

Module TaskDataInvariants.
Import Schema TaskData.

(** The primary key of the tasks table: no two rows carry the same id. *)
Definition primary_key (s : AsyncSession) : Prop :=
  NoDup (id <$> tasks s).

(** The key generator has not yet issued an id that is in the table. *)
Definition generator_ahead (s : AsyncSession) : Prop :=
  Forall (fun r => (id r < uuid_seq s)%N) (tasks s).

(** The argument that decides a column after two calls of [update_task]:
    the later one when it is given, the earlier one otherwise. *)
Definition later {A} (second first_ : option A) : option A :=
  match second with
  | Some _ => second
  | None => first_
  end.

(** The row that [insert_task] builds. *)
Definition new_task (key session_id' : asUUID) (order : Z) (data : dict)
    (status : string) : Task :=
  {| id := key; session_id := session_id'; task_order := order;
     task_data := data; task_status := status |}.

(** What a status argument of [fetch_current_tasks] asks of a task: its
    status, when the argument is truthy, and nothing otherwise. *)
Definition status_wanted (status : option string) (t : Task) : Prop :=
  truthy status = true -> status = Some (task_status t).

(** The rows that [delete_task] keeps. *)
Definition keep_others (task_id : asUUID) (t : Task) : bool :=
  negb (id t =? task_id)%N.

(** A call of one of the four functions, and the session it leaves. *)
Inductive TaskCall : Type :=
| Fetch (session_id' : asUUID) (status : option string)
| Update (task_id : asUUID) (status : option string) (order : option Z)
         (data : option dict)
| Insert (session_id' : asUUID) (order : Z) (data : dict) (status : string)
| Delete (task_id : asUUID).

Definition run_task_call (c : TaskCall) (s : AsyncSession) : AsyncSession :=
  match c with
  | Fetch sid status => snd (fetch_current_tasks sid status s)
  | Update task_id status order data =>
      snd (update_task task_id status order data s)
  | Insert sid order data status => snd (insert_task sid order data status s)
  | Delete task_id => snd (delete_task task_id s)
  end.

Definition run_task_calls (calls : list TaskCall) (s : AsyncSession)
  : AsyncSession :=
  fold_left (fun s c => run_task_call c s) calls s.

(** Whether a call is an insertion. *)
Definition inserts (c : TaskCall) : bool :=
  match c with
  | Insert _ _ _ _ => true
  | _ => false
  end.

(** A sample history without insertion: an update, a deletion, a listing. *)
Definition sample_calls : list TaskCall :=
  [ Update 1 (Some "running") None None; Delete 2; Fetch 7 None ].

End TaskDataInvariants.

(* ===================================================================== *)
(** ** [telemetry/log.py]                                                 *)
(* ===================================================================== *)

Module Log.

(** [sys.stdout] and [sys.stderr]. *)
Inductive Stream : Type := stdout | stderr.

Inductive CallsiteParameter : Type := LINENO | PATHNAME.

(** The structlog processors that the module names. *)
Inductive Processor : Type :=
| merge_contextvars
| add_logger_name
| add_log_level
| PositionalArgumentsFormatter
| ExtraAdder
| TimeStamper (fmt : string)
| CallsiteParameterAdder (parameters : list CallsiteParameter)
| dict_tracebacks
| wrap_for_formatter
| remove_processors_meta
| JSONRenderer.

(** [logging.Formatter(fmt)] and [structlog.stdlib.ProcessorFormatter]. *)
Inductive Formatter : Type :=
| Formatter_fmt (fmt : string)
| ProcessorFormatter (foreign_pre_chain processors : list Processor).

(** A [logging.StreamHandler]. *)
Record Handler := {
  stream : Stream;
  formatter : option Formatter
}.

Inductive Level : Type := NOTSET | DEBUG | INFO | WARNING | ERROR | CRITICAL.

(** A [logging.Logger]: its level and its handlers, in the order in which
    they were added. *)
Record Logger := {
  level : Level;
  handlers : list Handler
}.

(** The arguments of [structlog.configure]; the logger factory is always
    [structlog.stdlib.LoggerFactory()]. *)
Record StructlogConfig := {
  cfg_processors : list Processor;
  cache_logger_on_first_use : bool
}.

(** The logging state of the process: the loggers that exist, by name,
    and the structlog configuration once [structlog.configure] has run. *)
Record Process := {
  loggers : gmap string Logger;
  structlog_config : option StructlogConfig
}.

Definition IO (A : Type) : Type := Process -> A * Process.

Definition ret {A} (a : A) : IO A := fun w => (a, w).

Definition bind {A B} (m : IO A) (k : A -> IO B) : IO B :=
  fun w => let (a, w') := m w in k a w'.

Notation "'let*' x ':=' m 'in' k" :=
  (bind m (fun x => k))
  (at level 10, x name, m at level 100, k at level 200, only parsing).

(** A logger that nobody has configured yet. *)
Definition fresh_logger : Logger := {| level := NOTSET; handlers := [] |}.

(** The logger of a name, as [logging.getLogger] would hand it out. *)
Definition logger_named (w : Process) (name : string) : Logger :=
  default fresh_logger (loggers w !! name).

Definition set_logger (name : string) (l : Logger) (w : Process) : Process :=
  {| loggers := <[name := l]> (loggers w);
     structlog_config := structlog_config w |}.

(** [logging.getLogger(name)]: the logger of that name, created on first
    use; a logger is referred to by its name. *)
Definition getLogger (name : string) : IO string :=
  fun w => (name, set_logger name (logger_named w name) w).

(** [logger.addHandler(handler)] with a handler object that was just
    built, which therefore is not yet among the handlers. *)
Definition addHandler (logger : string) (h : Handler) : IO unit :=
  fun w =>
    let l := logger_named w logger in
    (tt, set_logger logger {| level := level l; handlers := handlers l ++ [h] |} w).

(** [logger.setLevel(lvl)] *)
Definition setLevel (logger : string) (lvl : Level) : IO unit :=
  fun w =>
    let l := logger_named w logger in
    (tt, set_logger logger {| level := lvl; handlers := handlers l |} w).

(** [structlog.configure(...)] *)
Definition structlog_configure (cfg : StructlogConfig) : IO unit :=
  fun w => (tt, {| loggers := loggers w; structlog_config := Some cfg |}).

(** [logging.StreamHandler(stream=...)]: standard error when no stream is
    given. *)
Definition StreamHandler (s : option Stream) : Handler :=
  {| stream := default stderr s; formatter := None |}.

(** [handler.setFormatter(formatter)], on a handler not yet attached. *)
Definition setFormatter (h : Handler) (f : Formatter) : Handler :=
  {| stream := stream h; formatter := Some f |}.

(** [util.terminal_color.TerminalColorMarks] is declared outside these
    sources; the three marks the module uses are taken as given. *)
Record TerminalColorMarks := {
  BOLD : string;
  BLUE : string;
  END : string
}.

Definition shared_processors : list Processor :=
  [ merge_contextvars; add_logger_name; add_log_level;
    PositionalArgumentsFormatter; ExtraAdder; TimeStamper "iso";
    CallsiteParameterAdder [LINENO; PATHNAME] ].

Definition __get_json_logger : IO string :=
  let structlog_processors :=
    shared_processors ++ [dict_tracebacks; wrap_for_formatter] in
  let* _ := structlog_configure
              {| cfg_processors := structlog_processors;
                 cache_logger_on_first_use := true |} in
  let formatter :=
    ProcessorFormatter shared_processors [remove_processors_meta; JSONRenderer] in
  let handler := StreamHandler (Some stdout) in
  let handler := setFormatter handler formatter in
  let* logger := getLogger "acontext-core" in
  let* _ := addHandler logger handler in
  let* _ := setLevel logger INFO in
  ret logger.

Definition __get_text_logger (marks : TerminalColorMarks) : IO string :=
  let formatter :=
    Formatter_fmt (BOLD marks +:+ BLUE marks +:+ "%(name)s |" +:+ END marks +:+
                   " %(asctime)s - %(levelname)s - %(message)s") in
  let handler := StreamHandler None in
  let handler := setFormatter handler formatter in
  let* logger := getLogger "acontext-core" in
  let* _ := setLevel logger INFO in
  let* _ := addHandler logger handler in
  ret logger.

Definition get_logger (marks : TerminalColorMarks) (format : string) : IO string :=
  if String.eqb format "json"
  then __get_json_logger
  else __get_text_logger marks.

(** The default of the [format] parameter. *)
Definition default_format : string := "text".

(** Calling [get_logger] once for each format of a list, in order. *)
Definition get_loggers (marks : TerminalColorMarks) (formats : list string)
    (w : Process) : Process :=
  fold_left (fun w format => snd (get_logger marks format w)) formats w.

(** A process in which logging has not been touched. *)
Definition fresh_process : Process :=
  {| loggers := ∅; structlog_config := None |}.

Definition no_marks : TerminalColorMarks :=
  {| BOLD := ""; BLUE := ""; END := "" |}.

End Log.

(* ===================================================================== *)
(** ** Properties of the task data-access functions                       *)
(* ===================================================================== *)

Module TaskDataProps.
Import Schema TaskData.

#[local] Instance order_le_trans : Transitive order_le.
Proof. unfold order_le. intros a b c. lia. Qed.

(** *** Enumeration and filtering *)

Lemma enumerate_from_app i l1 l2 :
  enumerate_from i (l1 ++ l2) =
  enumerate_from i l1 ++ enumerate_from (i + length l1) l2.
Proof.
  revert i. induction l1 as [|t l1 IH]; intros i; simpl.
  - f_equal. lia.
  - rewrite IH. do 3 f_equal. lia.
Qed.

Lemma filter_enumerate_no_hit (cond : Task -> bool) i l :
  Forall (fun r => cond r = false) l ->
  List.filter (fun o => cond (snd o)) (enumerate_from i l) = [].
Proof.
  intros H. revert i. induction H as [|t l Ht _ IH]; intros i; simpl.
  - reflexivity.
  - rewrite Ht. apply IH.
Qed.

Lemma all_filter_enumerate (cond : Task -> bool) i l :
  all (List.filter (fun o => cond (snd o)) (enumerate_from i l)) =
  List.filter cond l.
Proof.
  revert i. induction l as [|t l IH]; intros i; simpl.
  - reflexivity.
  - destruct (cond t); simpl; rewrite IH; reflexivity.
Qed.

Lemma id_neq_eqb (task_id : asUUID) l :
  Forall (fun r => id r <> task_id) l ->
  Forall (fun r => (true && (id r =? task_id)%N) = false) l.
Proof.
  intros H. eapply Forall_impl; [exact H|].
  intros r Hr. simpl. by apply N.eqb_neq.
Qed.

(** *** The insertion sort *)

Lemma insert_asc_perm o l : insert_asc o l ≡ₚ o :: l.
Proof.
  induction l as [|h l IH]; simpl.
  - reflexivity.
  - destruct (task_order (snd o) <=? task_order (snd h))%Z.
    + reflexivity.
    + rewrite IH. apply perm_swap.
Qed.

Lemma sort_asc_perm l : sort_asc l ≡ₚ l.
Proof.
  induction l as [|o l IH]; simpl.
  - reflexivity.
  - rewrite insert_asc_perm. by constructor.
Qed.

Lemma insert_asc_hdrel a o l :
  obj_le a o -> HdRel obj_le a l -> HdRel obj_le a (insert_asc o l).
Proof.
  intros Hao Hal. destruct l as [|h l]; simpl.
  - by constructor.
  - destruct (task_order (snd o) <=? task_order (snd h))%Z.
    + by constructor.
    + constructor. by inversion Hal.
Qed.

Lemma insert_asc_sorted o l :
  Sorted obj_le l -> Sorted obj_le (insert_asc o l).
Proof.
  induction 1 as [|h l Hl IH Hh]; simpl.
  - repeat constructor.
  - destruct (task_order (snd o) <=? task_order (snd h))%Z eqn:E.
    + constructor; [by constructor|].
      constructor. unfold obj_le, order_le. lia.
    + constructor; [exact IH|].
      apply insert_asc_hdrel; [|exact Hh].
      unfold obj_le, order_le. lia.
Qed.

Lemma sort_asc_sorted l : Sorted obj_le (sort_asc l).
Proof.
  induction l as [|o l IH]; simpl.
  - constructor.
  - by apply insert_asc_sorted.
Qed.

Lemma all_sort_asc_sorted l : StronglySorted order_le (all (sort_asc l)).
Proof.
  apply Sorted_StronglySorted; [apply _|].
  unfold all. apply (Sorted_fmap snd obj_le order_le); [auto|].
  apply sort_asc_sorted.
Qed.

(** *** What the ordered query returns *)

Lemma fetch_current_tasks_run session_id' status s :
  fetch_current_tasks session_id' status s =
  (resolve (all (sort_asc
     (List.filter (fun o => selected session_id' status (snd o))
                  (enumerate_from 0 (tasks s))))), s).
Proof.
  unfold fetch_current_tasks, bind, execute, ret.
  destruct (truthy status) eqn:E; simpl;
    rewrite (List.filter_ext _ (fun o => selected session_id' status (snd o)));
    try reflexivity;
    intros [i t]; unfold selected; rewrite E; simpl;
    [reflexivity | by rewrite andb_true_r].
Qed.

(** *** Looking a row up by primary key and writing to it *)

Lemma execute_by_id_hit s pre t post :
  tasks s = pre ++ t :: post ->
  Forall (fun r => id r <> id t) pre ->
  execute (where_ (fun r => (id r =? id t)%N) select_Task) s =
  ((length pre, t) ::
     List.filter (fun o => true && (id (snd o) =? id t)%N)
                 (enumerate_from (S (length pre)) post), s).
Proof.
  intros Hrows Hpre. unfold execute. simpl. rewrite Hrows.
  rewrite enumerate_from_app, List.filter_app.
  rewrite (filter_enumerate_no_hit (fun r => true && (id r =? id t)%N))
    by (by apply id_neq_eqb).
  simpl. rewrite N.eqb_refl. reflexivity.
Qed.

Lemma execute_by_id_miss s task_id :
  Forall (fun r => id r <> task_id) (tasks s) ->
  execute (where_ (fun r => (id r =? task_id)%N) select_Task) s = ([], s).
Proof.
  intros Hrows. unfold execute. simpl.
  rewrite (filter_enumerate_no_hit (fun r => true && (id r =? task_id)%N))
    by (by apply id_neq_eqb).
  reflexivity.
Qed.

(** Under the primary key, a row is the first one that carries its id. *)
Lemma primary_key_first pre t post :
  NoDup (id <$> (pre ++ t :: post)) ->
  Forall (fun r => id r <> id t) pre.
Proof.
  rewrite fmap_app, fmap_cons. intros H.
  apply NoDup_app in H as (_ & Hdisjoint & _).
  apply Forall_forall. intros r Hr Heq.
  apply (Hdisjoint (id r)).
  - by apply list_elem_of_fmap_2.
  - rewrite Heq. left.
Qed.

Lemma insert_at_length (pre post : list Task) x y :
  <[length pre := x]> (pre ++ y :: post) = pre ++ x :: post.
Proof.
  replace (length pre) with (length pre + 0) by lia.
  by rewrite insert_app_r.
Qed.

(** C2.  For a task that exists (the first row carrying its id; under the
    primary key, the only one), [update_task] resolves to that task with
    exactly the columns whose argument is not [None] replaced: a column
    whose argument is [None] keeps its value, [id] and [session_id] are
    never touched, and every other row of the table is left as it was. *)
Theorem update_task_changes_only_given_fields
    s pre t post (status : option string) (order : option Z) (data : option dict) :
  tasks s = pre ++ t :: post ->
  Forall (fun r => id r <> id t) pre ->
  update_task (id t) status order data s =
  (resolve (updated status order data t),
   set_tasks s (pre ++ updated status order data t :: post)).
Proof.
  intros Hrows Hpre. unfold update_task, bind.
  rewrite (execute_by_id_hit s pre t post Hrows Hpre).
  destruct s as [rows seq]. simpl in Hrows. subst rows.
  destruct t as [i sid o d st].
  destruct status as [v1|], order as [v2|], data as [v3|];
    unfold first, ret, setattr, set_tasks, updated; simpl;
    rewrite ?insert_at_length; reflexivity.
Qed.

Lemma update_task_changes_only_given_fields_witness :
  tasks three_rows =
    [row 1 7 3 "pending"] ++ row 2 7 1 "running" :: [row 3 7 2 "pending"] /\
  Forall (fun r => id r <> id (row 2 7 1 "running")) [row 1 7 3 "pending"] /\
  update_task 2 (Some "success") None None three_rows =
  (resolve (row 2 7 1 "success"),
   {| tasks := [row 1 7 3 "pending"; row 2 7 1 "success"; row 3 7 2 "pending"];
      uuid_seq := 4 |}).
Proof.
  assert (H1 : tasks three_rows =
    [row 1 7 3 "pending"] ++ row 2 7 1 "running" :: [row 3 7 2 "pending"])
    by reflexivity.
  assert (H2 : Forall (fun r => id r <> id (row 2 7 1 "running"))
                      [row 1 7 3 "pending"])
    by (constructor; [discriminate | constructor]).
  split; [exact H1 | split; [exact H2 |]].
  exact (update_task_changes_only_given_fields three_rows
           [row 1 7 3 "pending"] (row 2 7 1 "running") [row 3 7 2 "pending"]
           (Some "success") None None H1 H2).
Defined.

Lemma append_empty_r m : m +:+ EmptyString = m.
Proof.
  induction m as [|c m IH]; [reflexivity|].
  change (String c (m +:+ EmptyString) = String c m). by rewrite IH.
Qed.

Lemma str_in_self m : str_in m m.
Proof.
  exists EmptyString, EmptyString.
  change (m = m +:+ EmptyString). by rewrite append_empty_r.
Qed.

(** C9.  When no row carries [task_id], [update_task] rejects with the
    message "Task <task_id> not found": [unpack] gives no data and an
    error whose [errmsg] contains that message.  The session is returned
    exactly as it was received, so no record is modified. *)
Theorem update_task_unknown_id_rejects
    s task_id (status : option string) (order : option Z) (data : option dict) :
  Forall (fun r => id r <> task_id) (tasks s) ->
  update_task task_id status order data s =
    (reject ("Task " +:+ uuid_str task_id +:+ " not found"), s) /\
  exists err,
    unpack (fst (update_task task_id status order data s)) = (None, Some err) /\
    str_in ("Task " +:+ uuid_str task_id +:+ " not found") (errmsg err).
Proof.
  intros Hrows.
  assert (update_task task_id status order data s =
          (reject ("Task " +:+ uuid_str task_id +:+ " not found"), s)) as E.
  { unfold update_task, bind.
    rewrite (execute_by_id_miss s task_id Hrows). reflexivity. }
  split; [exact E|]. rewrite E. eexists. split; [reflexivity|].
  apply str_in_self.
Qed.

Lemma update_task_unknown_id_rejects_witness :
  Forall (fun r => id r <> 9%N) (tasks three_rows) /\
  update_task 9 (Some "success") None None three_rows =
    (reject "Task 00000000-0000-0000-0000-000000000009 not found", three_rows).
Proof.
  assert (H : Forall (fun r => id r <> 9%N) (tasks three_rows))
    by (repeat constructor; discriminate).
  split; [exact H |].
  exact (proj1 (update_task_unknown_id_rejects three_rows 9
                  (Some "success") None None H)).
Defined.

(** *** Deleting *)

Lemma filter_twice {A} (f : A -> bool) l :
  List.filter f (List.filter f l) = List.filter f l.
Proof.
  induction l as [|x l IH]; simpl; [reflexivity|].
  destruct (f x) eqn:E; simpl; [rewrite E, IH|]; done.
Qed.

Lemma filter_keeps_all {A} (f : A -> bool) l :
  Forall (fun x => f x = true) l -> List.filter f l = l.
Proof.
  induction 1 as [|x l Hx _ IH]; simpl; [reflexivity|].
  by rewrite Hx, IH.
Qed.

Lemma delete_task_run s task_id :
  delete_task task_id s =
  (resolve tt,
   set_tasks s (List.filter (fun t => negb (id t =? task_id)%N) (tasks s))).
Proof. reflexivity. Qed.

(** C3.  [delete_task] is idempotent.  For every id it resolves (with
    [None], and [unpack] reports no error), whether or not a row carries
    that id; a second call after the first one resolves again and
    returns the session unchanged; and a call for an id that no row
    carries returns the session unchanged. *)
Theorem delete_task_idempotent s task_id :
  delete_task task_id s = (resolve tt, snd (delete_task task_id s)) /\
  unpack (fst (delete_task task_id s)) = (Some tt, None) /\
  delete_task task_id (snd (delete_task task_id s)) =
    (resolve tt, snd (delete_task task_id s)) /\
  (Forall (fun r => id r <> task_id) (tasks s) ->
   delete_task task_id s = (resolve tt, s)).
Proof.
  repeat split.
  - rewrite !delete_task_run. simpl. unfold set_tasks. simpl.
    by rewrite filter_twice.
  - intros Hrows. rewrite delete_task_run.
    rewrite filter_keeps_all.
    + by destruct s.
    + eapply Forall_impl; [exact Hrows|].
      intros r Hr. simpl. apply negb_true_iff. by apply N.eqb_neq.
Qed.

Lemma delete_task_idempotent_witness :
  Forall (fun r => id r <> 9%N) (tasks three_rows) /\
  delete_task 9 three_rows = (resolve tt, three_rows) /\
  delete_task 2 (snd (delete_task 2 three_rows)) =
    (resolve tt, snd (delete_task 2 three_rows)).
Proof.
  assert (H : Forall (fun r => id r <> 9%N) (tasks three_rows))
    by (repeat constructor; discriminate).
  split; [exact H |]. split.
  - exact (proj2 (proj2 (proj2 (delete_task_idempotent three_rows 9))) H).
  - exact (proj1 (proj2 (proj2 (delete_task_idempotent three_rows 2)))).
Defined.

(** *** Inserting *)

(** [insert_task] appends: the order of the table is the order of
    creation. *)
Lemma insert_task_appends session_id' order data status s :
  insert_task session_id' order data status s =
  (resolve (uuid_seq s),
   {| tasks := tasks s ++ [ {| id := uuid_seq s; session_id := session_id';
                               task_order := order; task_data := data;
                               task_status := status |} ];
      uuid_seq := N.succ (uuid_seq s) |}).
Proof. reflexivity. Qed.

(** *** Listing *)

(** C4, as stated, fails: after inserting tasks with orders 3, 1, 2 the
    listing starts with the task created second, so it is not the
    listing by creation time. *)
Lemma fetch_current_tasks_not_by_creation_time :
  fetch_current_tasks 7 None inserted_3_1_2 =
    (resolve [row 2 7 1 "pending"; row 3 7 2 "pending"; row 1 7 3 "pending"],
     inserted_3_1_2) /\
  listing_by_creation_time 7 None inserted_3_1_2 =
    [row 1 7 3 "pending"; row 2 7 1 "pending"; row 3 7 2 "pending"] /\
  fst (fetch_current_tasks 7 None inserted_3_1_2) <>
    resolve (listing_by_creation_time 7 None inserted_3_1_2).
Proof.
  split; [reflexivity|]. split; [reflexivity|].
  vm_compute. intros H. discriminate H.
Qed.

Lemma sorted_selection_perm session_id' status s :
  all (sort_asc (List.filter (fun o => selected session_id' status (snd o))
                             (enumerate_from 0 (tasks s))))
  ≡ₚ listing_by_creation_time session_id' status s.
Proof.
  unfold listing_by_creation_time.
  rewrite <- (all_filter_enumerate (selected session_id' status) 0).
  unfold all. apply fmap_Permutation, sort_asc_perm.
Qed.

Lemma selected_falsy_status session_id' status t :
  truthy status = false ->
  selected session_id' status t = (session_id t =? session_id')%N.
Proof. intros H. unfold selected. rewrite H. apply andb_true_r. Qed.

(** C4, amended.  [fetch_current_tasks] is a pure read: it resolves and
    returns the session as it received it; the tasks it returns are
    exactly the selected rows (those of the session, restricted to the
    given status when that is truthy), each as often as it occurs, in
    ascending [task_order]. *)
Theorem fetch_current_tasks_ordered_by_task_order s session_id' status :
  exists l,
    fetch_current_tasks session_id' status s = (resolve l, s) /\
    StronglySorted order_le l /\
    l ≡ₚ listing_by_creation_time session_id' status s.
Proof.
  eexists. split; [apply fetch_current_tasks_run|]. split.
  - apply all_sort_asc_sorted.
  - apply sorted_selection_perm.
Qed.

(** C10.  The status filter is guarded by truthiness: with the empty
    string [fetch_current_tasks] runs exactly as with [None], and what
    it returns is every task of the session, whatever its status. *)
Theorem fetch_current_tasks_empty_status_unfiltered s session_id' :
  fetch_current_tasks session_id' (Some EmptyString) s =
    fetch_current_tasks session_id' None s /\
  exists l,
    fetch_current_tasks session_id' (Some EmptyString) s = (resolve l, s) /\
    l ≡ₚ List.filter (fun t => (session_id t =? session_id')%N) (tasks s).
Proof.
  split; [reflexivity|].
  eexists. split; [apply fetch_current_tasks_run|].
  rewrite sorted_selection_perm. unfold listing_by_creation_time.
  rewrite (List.filter_ext _ (fun t => (session_id t =? session_id')%N));
    [reflexivity|].
  intros t. by apply selected_falsy_status.
Qed.

(** By contrast [update_task] tests [is not None]: the empty string and
    the order 0 are written. *)
Example update_task_writes_falsy_values :
  update_task 2 (Some EmptyString) (Some 0%Z) None three_rows =
  (resolve (row 2 7 0 ""),
   {| tasks := [row 1 7 3 "pending"; row 2 7 0 ""; row 3 7 2 "pending"];
      uuid_seq := 4 |}).
Proof. reflexivity. Qed.

(** With a truthy status only the rows of that status are returned. *)
Example fetch_current_tasks_running :
  fetch_current_tasks 7 (Some "running") three_rows =
  (resolve [row 2 7 1 "running"], three_rows).
Proof. reflexivity. Qed.

End TaskDataProps.

(* ===================================================================== *)
(** ** Properties of the task SOP agent                                   *)
(* ===================================================================== *)

Module TaskSOPProps.
Import Schema TaskSOP.

(** C6.  [sop_agent_curd] is a stub: whatever its five arguments, it
    returns [None] and leaves everything as it found it. *)
Theorem sop_agent_curd_is_a_stub {TaskSchema World : Type}
    (project_id space_id : asUUID) (planning_task current_task : TaskSchema)
    (max_iterations : Z) (w : World) :
  sop_agent_curd project_id space_id planning_task current_task
                 max_iterations w = (tt, w).
Proof. reflexivity. Qed.

End TaskSOPProps.

(* ===================================================================== *)
(** ** Properties of the sandbox registry and lifecycle service           *)
(* ===================================================================== *)

Module SandboxProps.
Import Sandbox.

(** *** Registry *)

(** C1.  Resolving a sandbox whose backend has no registered factory
    raises [UnregisteredBackendError]; no handle is returned. *)
Theorem get_runtime_for_sandbox_unregistered reg sandbox :
  factories reg !! backend sandbox = None ->
  get_runtime_for_sandbox reg sandbox = Raise UnregisteredBackendError /\
  forall h, get_runtime_for_sandbox reg sandbox <> Ok h.
Proof.
  intros Hnone. unfold get_runtime_for_sandbox, resolve_backend.
  rewrite Hnone. split; [reflexivity | discriminate].
Qed.

Lemma get_runtime_for_sandbox_unregistered_witness :
  factories empty_registry !! backend remote_sandbox = None /\
  get_runtime_for_sandbox empty_registry remote_sandbox =
    Raise UnregisteredBackendError /\
  forall h, get_runtime_for_sandbox empty_registry remote_sandbox <> Ok h.
Proof.
  assert (H : factories empty_registry !! backend remote_sandbox = None)
    by reflexivity.
  split; [exact H |].
  exact (get_runtime_for_sandbox_unregistered empty_registry remote_sandbox H).
Defined.

(** With a registered factory, resolving builds the handle with it. *)
Lemma get_runtime_for_sandbox_registered reg sandbox factory :
  factories reg !! backend sandbox = Some factory ->
  get_runtime_for_sandbox reg sandbox = Ok (factory tt).
Proof.
  intros Hsome. unfold get_runtime_for_sandbox, resolve_backend.
  by rewrite Hsome.
Qed.

Lemma register_runtime_backend_factories b factory reg :
  factories (register_runtime_backend b factory reg) =
  <[b := factory]> (factories reg).
Proof. unfold register_runtime_backend. by destruct (factories reg !! b). Qed.

(** C5.  Last registration wins.  After registering [f1] and then [f2]
    under the same backend, the registry maps the backend to [f2], a
    sandbox of that backend resolves to the handle that [f2] builds, and
    the second registration has appended an overwrite warning to the
    log. *)
Theorem register_runtime_backend_last_wins reg b f1 f2 sid st urls meta :
  let reg1 := register_runtime_backend b f1 reg in
  let reg2 := register_runtime_backend b f2 reg1 in
  factories reg2 !! b = Some f2 /\
  get_runtime_for_sandbox reg2
    {| sandbox_id := sid; backend := b; status := st;
       exposed_urls := urls; metadata := meta |} = Ok (f2 tt) /\
  registry_log reg2 = registry_log reg1 ++ [OverwriteWarning b].
Proof.
  intros reg1 reg2.
  assert (Hreg1 : factories reg1 !! b = Some f1).
  { unfold reg1. rewrite register_runtime_backend_factories.
    apply lookup_insert_eq. }
  assert (Hreg2 : factories reg2 !! b = Some f2).
  { unfold reg2. rewrite register_runtime_backend_factories.
    apply lookup_insert_eq. }
  split; [exact Hreg2|]. split.
  - unfold get_runtime_for_sandbox, resolve_backend. simpl. by rewrite Hreg2.
  - unfold reg2, register_runtime_backend at 1. by rewrite Hreg1.
Qed.

(** A first registration is not logged. *)
Lemma register_runtime_backend_fresh reg b factory :
  factories reg !! b = None ->
  registry_log (register_runtime_backend b factory reg) = registry_log reg.
Proof. intros H. unfold register_runtime_backend. by rewrite H. Qed.

(** *** Pagination *)

Lemma listResources_first_page flt size store :
  listResources flt {| page_token := None; page_size := size |} store =
  listResources flt {| page_token := Some 0; page_size := size |} store.
Proof. reflexivity. Qed.




Example follow_pages_of_two :
  follow_pages 4 no_filter 2 three_sandboxes None =
  Some [ {| items := [sandbox 1 DOCKER Pending; sandbox 2 REMOTE Stopped];
            next_page_token := Some 2 |};
         {| items := [sandbox 3 DOCKER Pending]; next_page_token := None |} ].
Proof. reflexivity. Qed.



(** *** Exposed endpoints and the lifecycle *)








(** Terminating an unknown or already terminal resource succeeds and
    changes nothing. *)
Lemma terminateResource_unknown reg sid store :
  find_sandbox sid store = None ->
  terminateResource reg sid store = (Ok tt, store).
Proof. intros H. unfold terminateResource. by rewrite H. Qed.

Lemma terminateResource_terminal reg sid store r :
  find_sandbox sid store = Some r ->
  is_terminal (status r) = true ->
  terminateResource reg sid store = (Ok tt, store).
Proof. intros H1 H2. unfold terminateResource. by rewrite H1, H2. Qed.






(** The scenario of the specification: created by the stub backend, the
    sandbox is Running behind the stub's URL; once termination is
    requested it is Stopping and exposes nothing. *)
Example created_sandbox_is_running :
  sandbox_status (run_calls [CreateResource stub_registry docker_spec]) 1 = Some Running /\
  exposedUrls (run_calls [CreateResource stub_registry docker_spec]) 1 = stub_urls.
Proof. split; reflexivity. Qed.

Example terminated_sandbox_is_stopping :
  sandbox_status (run_calls create_then_terminate) 1 = Some Stopping /\
  exposedUrls (run_calls create_then_terminate) 1 = ∅.
Proof. split; reflexivity. Qed.

(** With the careless backend: the sandbox it reports as Pending with
    endpoints is recorded as Pending without them, and after the status
    call timed out it is marked Unknown; the stub's sandbox is untouched
    and still exposes its URL. *)
Example careless_backend_is_contained :
  sandbox_status (run_calls [CreateResource careless_registry remote_spec]) 2 =
    Some Pending /\
  exposedUrls (run_calls [CreateResource careless_registry remote_spec]) 2 = ∅ /\
  sandbox_status (run_calls mixed_history) 2 = Some Unknown /\
  sandbox_status (run_calls mixed_history) 1 = Some Running /\
  exposedUrls (run_calls mixed_history) 1 = stub_urls.
Proof. repeat split; reflexivity. Qed.

(** A backend call that times out is surfaced and leaves the record
    marked Unknown. *)
Example timed_out_status_call :
  fst (getStatus careless_registry 2
         (run_calls [CreateResource careless_registry remote_spec])) =
    Raise TimeoutError /\
  fst (terminateResource careless_registry 2
         (run_calls [CreateResource careless_registry remote_spec])) =
    Raise TimeoutError /\
  sandbox_status
    (snd (terminateResource careless_registry 2
            (run_calls [CreateResource careless_registry remote_spec]))) 2 =
    Some Unknown.
Proof. repeat split; reflexivity. Qed.

End SandboxProps.

(* ===================================================================== *)
(** ** How the task data-access functions compose                         *)
(* ===================================================================== *)

Module TaskDataCompose.
Import Schema TaskData TaskDataInvariants TaskDataProps.

(** *** Finding the row of an id *)

Lemma split_by_id (task_id : asUUID) (l : list Task) :
  Forall (fun r => id r <> task_id) l \/
  exists pre t post,
    l = pre ++ t :: post /\ id t = task_id /\
    Forall (fun r => id r <> task_id) pre.
Proof.
  induction l as [|r l IH].
  - left. constructor.
  - destruct (decide (id r = task_id)) as [Heq|Hne].
    + right. exists [], r, l. repeat split; [exact Heq | constructor].
    + destruct IH as [Hall|(pre & t & post & -> & Ht & Hpre)].
      * left. by constructor.
      * right. exists (r :: pre), t, post. repeat split; [exact Ht|].
        by constructor.
Qed.

Lemma update_task_hit s pre t post status order data :
  tasks s = pre ++ t :: post ->
  Forall (fun r => id r <> id t) pre ->
  update_task (id t) status order data s =
  (resolve (updated status order data t),
   set_tasks s (pre ++ updated status order data t :: post)).
Proof.
  intros Hrows Hpre. unfold update_task, bind.
  rewrite (execute_by_id_hit s pre t post Hrows Hpre).
  destruct s as [rows seq]. simpl in Hrows. subst rows.
  destruct t as [i sid o d st].
  destruct status, order, data;
    unfold first, ret, setattr, set_tasks, updated; simpl;
    rewrite ?insert_at_length; reflexivity.
Qed.

Lemma update_task_miss s task_id status order data :
  Forall (fun r => id r <> task_id) (tasks s) ->
  update_task task_id status order data s =
  (reject ("Task " +:+ uuid_str task_id +:+ " not found"), s).
Proof.
  intros Hrows. unfold update_task, bind.
  by rewrite (execute_by_id_miss s task_id Hrows).
Qed.

Lemma updated_twice st2 o2 d2 st1 o1 d1 t :
  updated st2 o2 d2 (updated st1 o1 d1 t) =
  updated (later st2 st1) (later o2 o1) (later d2 d1) t.
Proof. by destruct st2, o2, d2, st1, o1, d1. Qed.

Lemma later_same {A} (a : option A) : later a a = a.
Proof. by destruct a. Qed.

(** *** [update_task] *)

(** X1.  Whether or not the task exists, [update_task] never adds,
    removes or reorders rows and never changes the [id] or the
    [session_id] of any row; the key generator is left alone. *)
Theorem update_task_keeps_keys s task_id status order data :
  id <$> tasks (snd (update_task task_id status order data s)) = id <$> tasks s /\
  session_id <$> tasks (snd (update_task task_id status order data s)) =
    session_id <$> tasks s /\
  uuid_seq (snd (update_task task_id status order data s)) = uuid_seq s.
Proof.
  destruct (split_by_id task_id (tasks s))
    as [Hmiss|(pre & t & post & Hrows & <- & Hpre)].
  - by rewrite update_task_miss.
  - rewrite (update_task_hit s pre t post status order data Hrows Hpre).
    simpl. rewrite Hrows, !fmap_app, !fmap_cons. done.
Qed.

(** X2.  Two calls of [update_task] for the same id act as one call in
    which each column takes the later argument that is not [None]: same
    result, same session. *)
Theorem update_task_twice s task_id st1 o1 d1 st2 o2 d2 :
  update_task task_id st2 o2 d2 (snd (update_task task_id st1 o1 d1 s)) =
  update_task task_id (later st2 st1) (later o2 o1) (later d2 d1) s.
Proof.
  destruct (split_by_id task_id (tasks s))
    as [Hmiss|(pre & t & post & Hrows & <- & Hpre)].
  - rewrite (update_task_miss s task_id st1 o1 d1 Hmiss). simpl.
    by rewrite !update_task_miss.
  - rewrite (update_task_hit s pre t post st1 o1 d1 Hrows Hpre). simpl.
    rewrite (update_task_hit s pre t post _ _ _ Hrows Hpre).
    change (id t) with (id (updated st1 o1 d1 t)) at 1.
    rewrite (update_task_hit (set_tasks s (pre ++ updated st1 o1 d1 t :: post))
               pre (updated st1 o1 d1 t) post st2 o2 d2 eq_refl Hpre).
    by rewrite updated_twice.
Qed.

(** X3.  [update_task] is idempotent: repeating a call with the same
    arguments returns the same result and changes nothing further. *)
Theorem update_task_idempotent s task_id status order data :
  update_task task_id status order data
              (snd (update_task task_id status order data s)) =
  update_task task_id status order data s.
Proof.
  destruct (split_by_id task_id (tasks s))
    as [Hmiss|(pre & t & post & Hrows & <- & Hpre)].
  - rewrite (update_task_miss s task_id status order data Hmiss). simpl.
    by rewrite update_task_miss.
  - rewrite (update_task_hit s pre t post status order data Hrows Hpre). simpl.
    change (id t) with (id (updated status order data t)) at 1.
    rewrite (update_task_hit (set_tasks s (pre ++ updated status order data t :: post))
               pre (updated status order data t) post status order data eq_refl Hpre).
    by rewrite updated_twice, !later_same.
Qed.

(** *** [fetch_current_tasks] *)

Lemma selected_true session_id' status t :
  selected session_id' status t = true <->
  session_id t = session_id' /\ status_wanted status t.
Proof.
  unfold selected, status_wanted. rewrite andb_true_iff, N.eqb_eq.
  destruct (truthy status) eqn:E.
  - destruct status as [v|]; [|discriminate]. simpl. rewrite String.eqb_eq.
    split; intros [H1 H2]; (split; [exact H1|]).
    + intros _. by rewrite H2.
    + specialize (H2 eq_refl). congruence.
  - split; intros [H1 _]; (split; [exact H1|]); [discriminate | reflexivity].
Qed.

Lemma elem_of_listing session_id' status s t :
  t ∈ listing_by_creation_time session_id' status s <->
  t ∈ tasks s /\ session_id t = session_id' /\ status_wanted status t.
Proof.
  unfold listing_by_creation_time.
  rewrite !list_elem_of_In, List.filter_In, selected_true. reflexivity.
Qed.

(** X4.  [fetch_current_tasks] returns exactly the tasks of the session
    asked for, and when the status argument is truthy exactly those with
    that status: a task of another session or another status is never
    returned, and no matching task is left out. *)
Theorem fetch_current_tasks_returns_exactly s session_id' status :
  exists l,
    fetch_current_tasks session_id' status s = (resolve l, s) /\
    forall t, t ∈ l <->
              t ∈ tasks s /\ session_id t = session_id' /\ status_wanted status t.
Proof.
  eexists. split; [apply fetch_current_tasks_run|].
  intros t. rewrite sorted_selection_perm. apply elem_of_listing.
Qed.

(** X5.  For a session that has no task, [fetch_current_tasks] resolves
    with the empty list, whatever the status argument. *)
Theorem fetch_current_tasks_of_unknown_session s session_id' status :
  Forall (fun r => session_id r <> session_id') (tasks s) ->
  fetch_current_tasks session_id' status s = (resolve [], s).
Proof.
  intros Hrows. rewrite fetch_current_tasks_run.
  rewrite (filter_enumerate_no_hit (selected session_id' status)); [reflexivity|].
  eapply Forall_impl; [exact Hrows|].
  intros r Hr. unfold selected.
  apply andb_false_iff. left. by apply N.eqb_neq.
Qed.

Lemma fetch_current_tasks_of_unknown_session_witness :
  Forall (fun r => session_id r <> 8%N) (tasks three_rows) /\
  fetch_current_tasks 8 (Some "pending") three_rows = (resolve [], three_rows).
Proof.
  assert (H : Forall (fun r => session_id r <> 8%N) (tasks three_rows))
    by (repeat constructor; discriminate).
  split; [exact H |].
  exact (fetch_current_tasks_of_unknown_session three_rows 8 (Some "pending") H).
Defined.

(** *** [insert_task] followed by the other functions *)

Lemma generator_ahead_fresh s :
  generator_ahead s -> Forall (fun r => id r <> uuid_seq s) (tasks s).
Proof.
  intros H. eapply Forall_impl; [exact H|]. intros r Hr. simpl in Hr. lia.
Qed.

Lemma insert_task_run session_id' order data status s :
  insert_task session_id' order data status s =
  (resolve (uuid_seq s),
   {| tasks := tasks s ++ [new_task (uuid_seq s) session_id' order data status];
      uuid_seq := N.succ (uuid_seq s) |}).
Proof. reflexivity. Qed.

(** X6.  The id that [insert_task] returns is that of the new row: an
    [update_task] for it finds the row with the inserted values, returns
    it with the given columns replaced, and leaves the earlier rows as
    they were.  (With every argument [None] this reads the row back.) *)
Theorem insert_task_then_update_task
    s session_id' order data status status' order' data' :
  generator_ahead s ->
  exists key s1,
    insert_task session_id' order data status s = (resolve key, s1) /\
    update_task key status' order' data' s1 =
    (resolve (updated status' order' data'
                (new_task key session_id' order data status)),
     set_tasks s1
       (tasks s ++ [updated status' order' data'
                      (new_task key session_id' order data status)])).
Proof.
  intros Hgen. eexists _, _. split; [apply insert_task_run|].
  apply (update_task_hit _ (tasks s)
           (new_task (uuid_seq s) session_id' order data status) []);
    [reflexivity|].
  by apply generator_ahead_fresh.
Qed.

Lemma three_rows_generator_ahead : generator_ahead three_rows.
Proof. repeat constructor. Qed.

Lemma insert_task_then_update_task_witness :
  generator_ahead three_rows /\
  exists key s1,
    insert_task 7 5 [] "pending" three_rows = (resolve key, s1) /\
    update_task key (Some "running") None None s1 =
    (resolve (updated (Some "running") None None (new_task key 7 5 [] "pending")),
     set_tasks s1
       (tasks three_rows ++
        [updated (Some "running") None None (new_task key 7 5 [] "pending")])).
Proof.
  split; [exact three_rows_generator_ahead |].
  exact (insert_task_then_update_task three_rows 7 5 [] "pending"
           (Some "running") None None three_rows_generator_ahead).
Defined.

(** X7.  After [insert_task] the listing of the task's session holds
    exactly one more task, the new one (when the status argument lets
    it through). *)
Theorem insert_task_then_fetch_current_tasks s session_id' order data status status' :
  status_wanted status'
    (new_task (uuid_seq s) session_id' order data status) ->
  exists l l',
    fetch_current_tasks session_id' status' s = (resolve l, s) /\
    fetch_current_tasks session_id' status'
      (snd (insert_task session_id' order data status s)) =
      (resolve l', snd (insert_task session_id' order data status s)) /\
    l' ≡ₚ new_task (uuid_seq s) session_id' order data status :: l.
Proof.
  intros Hst. eexists _, _.
  split; [apply fetch_current_tasks_run|].
  split; [apply fetch_current_tasks_run|].
  rewrite !sorted_selection_perm. unfold listing_by_creation_time.
  rewrite insert_task_run. simpl. rewrite List.filter_app. simpl.
  assert (selected session_id' status'
            (new_task (uuid_seq s) session_id' order data status) = true) as ->
    by (by apply selected_true).
  symmetry. apply Permutation_cons_append.
Qed.

Lemma insert_task_then_fetch_current_tasks_witness :
  status_wanted None (new_task (uuid_seq three_rows) 7 5 [] "pending") /\
  exists l l',
    fetch_current_tasks 7 None three_rows = (resolve l, three_rows) /\
    fetch_current_tasks 7 None (snd (insert_task 7 5 [] "pending" three_rows)) =
      (resolve l', snd (insert_task 7 5 [] "pending" three_rows)) /\
    l' ≡ₚ new_task (uuid_seq three_rows) 7 5 [] "pending" :: l.
Proof.
  assert (H : status_wanted None (new_task (uuid_seq three_rows) 7 5 [] "pending"))
    by (intros E; discriminate E).
  split; [exact H |].
  exact (insert_task_then_fetch_current_tasks three_rows 7 5 [] "pending" None H).
Defined.

(** X8.  [insert_task] into one session does not change what
    [fetch_current_tasks] returns for any other session. *)
Theorem insert_task_keeps_other_sessions
    s session_id' order data status other status' :
  other <> session_id' ->
  fst (fetch_current_tasks other status'
         (snd (insert_task session_id' order data status s))) =
  fst (fetch_current_tasks other status' s).
Proof.
  intros Hother. rewrite !fetch_current_tasks_run, insert_task_run. simpl.
  rewrite enumerate_from_app, List.filter_app. simpl.
  assert (selected other status'
            (new_task (uuid_seq s) session_id' order data status) = false) as ->.
  { unfold selected. simpl. apply andb_false_iff. left.
    apply N.eqb_neq. congruence. }
  by rewrite app_nil_r.
Qed.

Lemma insert_task_keeps_other_sessions_witness :
  7%N <> 8%N /\
  fst (fetch_current_tasks 7 None (snd (insert_task 8 5 [] "pending" three_rows))) =
  fst (fetch_current_tasks 7 None three_rows).
Proof.
  assert (H : 7%N <> 8%N) by discriminate.
  split; [exact H |].
  exact (insert_task_keeps_other_sessions three_rows 8 5 [] "pending" 7 None H).
Defined.

(** *** [delete_task] and the other functions *)

Lemma delete_task_keeps_others s task_id :
  delete_task task_id s =
  (resolve tt, set_tasks s (List.filter (keep_others task_id) (tasks s))).
Proof. reflexivity. Qed.

Lemma keep_others_true task_id t : keep_others task_id t = true <-> id t <> task_id.
Proof. unfold keep_others. rewrite negb_true_iff. apply N.eqb_neq. Qed.

Lemma keep_others_all task_id l :
  Forall (fun r => id r <> task_id) l ->
  List.filter (keep_others task_id) l = l.
Proof.
  intros H. apply filter_keeps_all.
  eapply Forall_impl; [exact H|]. intros r Hr. by apply keep_others_true.
Qed.

Lemma keep_others_gone task_id l :
  Forall (fun r => id r <> task_id) (List.filter (keep_others task_id) l).
Proof.
  apply Forall_forall. intros r Hr.
  apply list_elem_of_In, List.filter_In in Hr as [_ Hr].
  by apply keep_others_true.
Qed.

Lemma keep_others_Forall (P : Task -> Prop) task_id l :
  Forall P l -> Forall P (List.filter (keep_others task_id) l).
Proof.
  intros H. apply Forall_forall. intros r Hr.
  apply list_elem_of_In, List.filter_In in Hr as [Hr _].
  rewrite Forall_forall in H. by apply H, list_elem_of_In.
Qed.

(** X9.  Deleting the task that [insert_task] has just created gives the
    table back as it was before the insertion. *)
Theorem insert_task_then_delete_task s session_id' order data status :
  generator_ahead s ->
  exists key s1,
    insert_task session_id' order data status s = (resolve key, s1) /\
    delete_task key s1 = (resolve tt, set_tasks s1 (tasks s)).
Proof.
  intros Hgen. eexists _, _. split; [apply insert_task_run|].
  rewrite delete_task_keeps_others. cbn [tasks].
  rewrite List.filter_app.
  rewrite (keep_others_all (uuid_seq s) (tasks s) (generator_ahead_fresh s Hgen)).
  cbn [List.filter]. unfold keep_others, new_task. cbn [id].
  rewrite N.eqb_refl. cbn [negb]. by rewrite app_nil_r.
Qed.

Lemma insert_task_then_delete_task_witness :
  generator_ahead three_rows /\
  exists key s1,
    insert_task 7 5 [] "pending" three_rows = (resolve key, s1) /\
    delete_task key s1 = (resolve tt, set_tasks s1 (tasks three_rows)).
Proof.
  split; [exact three_rows_generator_ahead |].
  exact (insert_task_then_delete_task three_rows 7 5 [] "pending"
           three_rows_generator_ahead).
Defined.

(** X10.  Once [delete_task] has run for an id, the id is gone for the
    other functions: [update_task] rejects it as not found and changes
    nothing, and [fetch_current_tasks] returns no task that carries it. *)
Theorem delete_task_then_id_is_gone s task_id status order data session_id' status' :
  update_task task_id status order data (snd (delete_task task_id s)) =
    (reject ("Task " +:+ uuid_str task_id +:+ " not found"),
     snd (delete_task task_id s)) /\
  exists l,
    fetch_current_tasks session_id' status' (snd (delete_task task_id s)) =
      (resolve l, snd (delete_task task_id s)) /\
    Forall (fun t => id t <> task_id) l.
Proof.
  split.
  - apply update_task_miss. rewrite delete_task_keeps_others. simpl.
    apply keep_others_gone.
  - eexists. split; [apply fetch_current_tasks_run|].
    apply Forall_forall. intros t Ht.
    rewrite sorted_selection_perm in Ht.
    apply elem_of_listing in Ht as [Ht _].
    rewrite delete_task_keeps_others in Ht. simpl in Ht.
    pose proof (keep_others_gone task_id (tasks s)) as Hgone.
    rewrite Forall_forall in Hgone. by apply Hgone.
Qed.

Lemma primary_key_last pre t post :
  NoDup (id <$> (pre ++ t :: post)) ->
  Forall (fun r => id r <> id t) post.
Proof.
  rewrite fmap_app, fmap_cons. intros H.
  apply NoDup_app in H as (_ & _ & H). apply NoDup_cons in H as [Hnotin _].
  apply Forall_forall. intros r Hr Heq.
  apply Hnotin. rewrite <- Heq. by apply list_elem_of_fmap_2.
Qed.

(** X11.  Under the primary key, [delete_task] removes exactly the row of
    that id: the rows before it and after it stay, in their order. *)
Theorem delete_task_removes_one_row s pre t post :
  tasks s = pre ++ t :: post ->
  primary_key s ->
  delete_task (id t) s = (resolve tt, set_tasks s (pre ++ post)).
Proof.
  intros Hrows Hkey. unfold primary_key in Hkey. rewrite Hrows in Hkey.
  rewrite delete_task_keeps_others, Hrows. do 2 f_equal.
  rewrite List.filter_app.
  rewrite (keep_others_all _ _ (primary_key_first _ _ _ Hkey)).
  cbn [List.filter].
  rewrite (keep_others_all _ _ (primary_key_last _ _ _ Hkey)).
  unfold keep_others. by rewrite N.eqb_refl.
Qed.

Lemma three_rows_primary_key : primary_key three_rows.
Proof.
  unfold primary_key. apply (bool_decide_unpack _). vm_compute. reflexivity.
Qed.

Lemma delete_task_removes_one_row_witness :
  tasks three_rows =
    [row 1 7 3 "pending"] ++ row 2 7 1 "running" :: [row 3 7 2 "pending"] /\
  primary_key three_rows /\
  delete_task 2 three_rows =
    (resolve tt,
     set_tasks three_rows ([row 1 7 3 "pending"] ++ [row 3 7 2 "pending"])).
Proof.
  assert (H : tasks three_rows =
    [row 1 7 3 "pending"] ++ row 2 7 1 "running" :: [row 3 7 2 "pending"])
    by reflexivity.
  split; [exact H |]. split; [exact three_rows_primary_key |].
  exact (delete_task_removes_one_row three_rows [row 1 7 3 "pending"]
           (row 2 7 1 "running") [row 3 7 2 "pending"] H three_rows_primary_key).
Defined.

(** X12.  [update_task] and [delete_task] for two different ids do not
    interfere: in either order the update returns the same result and the
    session ends up the same. *)
Theorem update_task_delete_task_commute s task_id other status order data :
  task_id <> other ->
  update_task task_id status order data (snd (delete_task other s)) =
  (fst (update_task task_id status order data s),
   snd (delete_task other (snd (update_task task_id status order data s)))).
Proof.
  intros Hne.
  destruct (split_by_id task_id (tasks s))
    as [Hmiss|(pre & t & post & Hrows & <- & Hpre)].
  - rewrite (update_task_miss s task_id status order data Hmiss).
    cbn [fst snd]. apply update_task_miss.
    rewrite delete_task_keeps_others. cbn [snd tasks set_tasks].
    by apply keep_others_Forall.
  - rewrite (update_task_hit s pre t post status order data Hrows Hpre).
    rewrite !delete_task_keeps_others. cbn [fst snd tasks set_tasks].
    rewrite Hrows, !List.filter_app. cbn [List.filter].
    assert (keep_others other t = true) as -> by (by apply keep_others_true).
    assert (keep_others other (updated status order data t) = true) as ->
      by (by apply keep_others_true).
    rewrite (update_task_hit _ (List.filter (keep_others other) pre) t
               (List.filter (keep_others other) post) status order data);
      [reflexivity | reflexivity | by apply keep_others_Forall].
Qed.

Lemma update_task_delete_task_commute_witness :
  2%N <> 1%N /\
  update_task 2 (Some "success") None None (snd (delete_task 1 three_rows)) =
  (fst (update_task 2 (Some "success") None None three_rows),
   snd (delete_task 1 (snd (update_task 2 (Some "success") None None three_rows)))).
Proof.
  assert (H : 2%N <> 1%N) by discriminate.
  split; [exact H |].
  exact (update_task_delete_task_commute three_rows 2 1 (Some "success") None None H).
Defined.

(** *** The ids of the table through histories of calls *)

Lemma update_task_same_ids s task_id status order data :
  id <$> tasks (snd (update_task task_id status order data s)) = id <$> tasks s.
Proof.
  destruct (split_by_id task_id (tasks s))
    as [Hmiss|(pre & t & post & Hrows & <- & Hpre)].
  - by rewrite update_task_miss.
  - rewrite (update_task_hit s pre t post status order data Hrows Hpre).
    simpl. by rewrite Hrows, !fmap_app, !fmap_cons.
Qed.

Lemma keep_others_sublist task_id l :
  List.filter (keep_others task_id) l `sublist_of` l.
Proof.
  induction l as [|r l IH]; simpl; [constructor|].
  destruct (keep_others task_id r); by constructor.
Qed.

Lemma run_task_call_ids c s :
  inserts c = false ->
  (id <$> tasks (run_task_call c s)) `sublist_of` (id <$> tasks s).
Proof.
  destruct c; cbn [run_task_call inserts]; intros Hc.
  - by rewrite fetch_current_tasks_run.
  - by rewrite update_task_same_ids.
  - discriminate Hc.
  - rewrite delete_task_keeps_others. cbn [snd tasks set_tasks].
    apply fmap_sublist, keep_others_sublist.
Qed.

(** X13.  [fetch_current_tasks], [update_task] and [delete_task] never
    bring an id into the table and never reorder ids: after any sequence
    of calls of these three, the ids in the table are those it had
    before, in the same order, with some removed.  In particular, ids
    that were unique stay unique. *)
Theorem calls_without_insert_keep_ids calls s :
  Forall (fun c => inserts c = false) calls ->
  (id <$> tasks (run_task_calls calls s)) `sublist_of` (id <$> tasks s) /\
  (primary_key s -> primary_key (run_task_calls calls s)).
Proof.
  intros Hcalls.
  assert (Hsub : (id <$> tasks (run_task_calls calls s))
                   `sublist_of` (id <$> tasks s)).
  { revert s. induction Hcalls as [|c calls Hc _ IH]; intros s; simpl.
    - reflexivity.
    - etransitivity; [apply IH|]. by apply run_task_call_ids. }
  split; [exact Hsub|].
  unfold primary_key. intros Hkey. by eapply sublist_NoDup.
Qed.

Lemma calls_without_insert_keep_ids_witness :
  Forall (fun c => inserts c = false) sample_calls /\
  primary_key three_rows /\
  (id <$> tasks (run_task_calls sample_calls three_rows))
    `sublist_of` (id <$> tasks three_rows) /\
  primary_key (run_task_calls sample_calls three_rows).
Proof.
  assert (H : Forall (fun c => inserts c = false) sample_calls)
    by (repeat constructor).
  split; [exact H |]. split; [exact three_rows_primary_key |].
  split.
  - exact (proj1 (calls_without_insert_keep_ids sample_calls three_rows H)).
  - exact (proj2 (calls_without_insert_keep_ids sample_calls three_rows H)
             three_rows_primary_key).
Defined.

Example sample_calls_result :
  tasks (run_task_calls sample_calls three_rows) =
  [row 1 7 3 "running"; row 3 7 2 "pending"].
Proof. reflexivity. Qed.

End TaskDataCompose.

(* ===================================================================== *)
(** ** Properties of the logger set-up                                    *)
(* ===================================================================== *)

Module LogProps.
Import Log.

Lemma logger_named_set name l w :
  logger_named (set_logger name l w) name = l.
Proof. unfold logger_named, set_logger. simpl. by rewrite lookup_insert_eq. Qed.

Lemma set_logger_twice name l1 l2 w :
  set_logger name l2 (set_logger name l1 w) = set_logger name l2 w.
Proof. unfold set_logger. simpl. by rewrite insert_insert_eq. Qed.

Lemma get_text_logger_run marks w :
  __get_text_logger marks w =
  ("acontext-core",
   set_logger "acontext-core"
     {| level := INFO;
        handlers := handlers (logger_named w "acontext-core") ++
          [setFormatter (StreamHandler None)
             (Formatter_fmt (BOLD marks +:+ BLUE marks +:+ "%(name)s |" +:+
                             END marks +:+
                             " %(asctime)s - %(levelname)s - %(message)s"))] |}
     w).
Proof.
  unfold __get_text_logger, bind, getLogger, setLevel, addHandler, ret.
  rewrite !logger_named_set, !set_logger_twice. reflexivity.
Qed.

Lemma get_json_logger_run w :
  __get_json_logger w =
  ("acontext-core",
   set_logger "acontext-core"
     {| level := INFO;
        handlers := handlers (logger_named w "acontext-core") ++
          [setFormatter (StreamHandler (Some stdout))
             (ProcessorFormatter shared_processors
                [remove_processors_meta; JSONRenderer])] |}
     {| loggers := loggers w;
        structlog_config :=
          Some {| cfg_processors :=
                    shared_processors ++ [dict_tracebacks; wrap_for_formatter];
                  cache_logger_on_first_use := true |} |}).
Proof.
  unfold __get_json_logger, bind, structlog_configure, getLogger, setLevel,
    addHandler, ret.
  rewrite !logger_named_set, !set_logger_twice. reflexivity.
Qed.

(** X14.  Whatever the format, [get_logger] returns the logger named
    "acontext-core", leaves it at level INFO with exactly one handler
    more than it had, after those it had, and touches no other logger.
    The new handler writes to standard output for the format "json" and
    to standard error otherwise. *)
Theorem get_logger_adds_one_handler marks format w :
  exists h,
    fst (get_logger marks format w) = "acontext-core" /\
    logger_named (snd (get_logger marks format w)) "acontext-core" =
      {| level := INFO;
         handlers := handlers (logger_named w "acontext-core") ++ [h] |} /\
    stream h = (if String.eqb format "json" then stdout else stderr) /\
    forall name, name <> "acontext-core" ->
      loggers (snd (get_logger marks format w)) !! name = loggers w !! name.
Proof.
  unfold get_logger. destruct (String.eqb format "json").
  - rewrite get_json_logger_run. eexists. split; [reflexivity|].
    split; [apply logger_named_set|]. split; [reflexivity|].
    intros name Hname. simpl. by rewrite lookup_insert_ne.
  - rewrite get_text_logger_run. eexists. split; [reflexivity|].
    split; [apply logger_named_set|]. split; [reflexivity|].
    intros name Hname. simpl. by rewrite lookup_insert_ne.
Qed.

(** X15.  Only the format "json" configures structlog, and it replaces
    whatever configuration there was; with any other format, known or
    not, [get_logger] falls back to the text logger and leaves the
    structlog configuration as it found it. *)
Theorem get_logger_structlog marks format w :
  (format = "json" ->
   structlog_config (snd (get_logger marks format w)) =
     Some {| cfg_processors :=
               shared_processors ++ [dict_tracebacks; wrap_for_formatter];
             cache_logger_on_first_use := true |}) /\
  (format <> "json" ->
   snd (get_logger marks format w) = snd (__get_text_logger marks w) /\
   structlog_config (snd (get_logger marks format w)) = structlog_config w).
Proof.
  unfold get_logger. split.
  - intros ->. by rewrite get_json_logger_run.
  - intros Hne. apply String.eqb_neq in Hne. rewrite Hne.
    split; [reflexivity|]. by rewrite get_text_logger_run.
Qed.

Lemma get_logger_structlog_witness :
  "TEXT" <> "json" /\
  structlog_config (snd (get_logger no_marks "TEXT" fresh_process)) = None.
Proof.
  assert (H : "TEXT" <> "json") by discriminate.
  split; [exact H |].
  exact (proj2 (proj2 (get_logger_structlog no_marks "TEXT" fresh_process) H)).
Defined.

Lemma get_logger_handlers marks format w :
  length (handlers (logger_named (snd (get_logger marks format w)) "acontext-core")) =
  S (length (handlers (logger_named w "acontext-core"))).
Proof.
  unfold get_logger. destruct (String.eqb format "json").
  - rewrite get_json_logger_run. cbn [snd]. rewrite logger_named_set.
    cbn [handlers]. rewrite length_app. simpl. lia.
  - rewrite get_text_logger_run. cbn [snd]. rewrite logger_named_set.
    cbn [handlers]. rewrite length_app. simpl. lia.
Qed.

(** X16.  Handlers accumulate: [get_logger] never reuses or replaces a
    handler, so after it has been called once for each format of a list
    the "acontext-core" logger has as many handlers more as there were
    calls. *)
Theorem get_logger_handlers_accumulate marks formats w :
  length (handlers (logger_named (get_loggers marks formats w) "acontext-core")) =
  length (handlers (logger_named w "acontext-core")) + length formats.
Proof.
  unfold get_loggers. revert w.
  induction formats as [|format formats IH]; intros w; simpl.
  - lia.
  - rewrite IH, get_logger_handlers. lia.
Qed.

End LogProps.
